(** * The LLDB ABI plugin for MOS 6502 targets (ABISysV_mos)

    A shallow embedding of [ABISysV_mos.cpp] and [ABISysV_mos.h]: the static
    register table, the two synthesized unwind plans, the address validity
    predicates, the register classification and the calling-convention
    stubs.

    Conventions.
    - [uint32_t], [uint64_t], [size_t] and [lldb::addr_t] values are [Z];
      none of the modelled functions performs arithmetic, so no wrap-around
      occurs anywhere.
    - A C string is a [string]; a pointer that may be null is an [option].
    - A parameter taken by non-const reference is passed in and handed back
      next to the return value, so that a caller can observe whether the
      callee changed it.
    - Member functions take the object as their first argument [this]. *)

From Stdlib Require Import ZArith String List.
From stdpp Require Import base option list gmap strings.

Open Scope Z_scope.

(** ** The parts of the LLDB interface the plugin is written against

    The headers below [lldb/] are not part of the plugin's two files; what
    the plugin uses of them is collected in this module. *)
Module lldb.

(** Modelled from the spec: [lldb::Encoding] (lldb-enumerations.h is
    missing); the register descriptors use the unsigned integer
    encoding. *)
Inductive Encoding :=
  | eEncodingInvalid
  | eEncodingUint
  | eEncodingSint.

(** Modelled from the spec: [lldb::Format] (lldb-enumerations.h is
    missing); the register descriptors are displayed in hexadecimal. *)
Inductive Format :=
  | eFormatDefault
  | eFormatHex.

(** Modelled from the spec: [lldb::RegisterKind] (lldb-enumerations.h is
    missing), the numbering schemes of a descriptor's identifier array
    in the order of that array: a native scheme, the debug-info (DWARF)
    scheme, the generic architectural role, and two further schemes. *)
Inductive RegisterKind :=
  | eRegisterKindEHFrame
  | eRegisterKindDWARF
  | eRegisterKindGeneric
  | eRegisterKindProcessPlugin
  | eRegisterKindLLDB.

Definition kind_index (k : RegisterKind) : nat :=
  match k with
  | eRegisterKindEHFrame => 0
  | eRegisterKindDWARF => 1
  | eRegisterKindGeneric => 2
  | eRegisterKindProcessPlugin => 3
  | eRegisterKindLLDB => 4
  end%nat.

Definition kNumRegisterKinds : nat := 5.

(** Modelled from the spec: [lldb::LazyBool] (lldb-enumerations.h is
    missing), a flag that is either not determined yet or a definite
    no or yes. *)
Inductive LazyBool :=
  | eLazyBoolCalculate
  | eLazyBoolNo
  | eLazyBoolYes.

(** Modelled from the spec: the macros [LLDB_INVALID_REGNUM] and
    [LLDB_REGNUM_GENERIC_*] (lldb-defines.h is missing).  Their numeric
    values are not fixed here: they are parameters of the development,
    and the theorems that tell roles apart assume that the four values
    differ ([generic_roles_distinct] below). *)
Class defines := {
  LLDB_INVALID_REGNUM : Z;
  LLDB_REGNUM_GENERIC_PC : Z;
  LLDB_REGNUM_GENERIC_SP : Z;
  LLDB_REGNUM_GENERIC_FLAGS : Z
}.

(** Modelled from the spec: [lldb_private::RegisterInfo]
    (lldb-private-types.h is missing): primary name, optional alternate
    name, byte size, byte offset in the register file, encoding, display
    format, the identifiers under the [kNumRegisterKinds] numbering
    schemes, and three pointers that are null in every entry of this
    plugin. *)
Record RegisterInfo := {
  name : string;
  alt_name : option string;
  byte_size : Z;
  byte_offset : Z;
  encoding : Encoding;
  format : Format;
  kinds : list Z;
  value_regs : option (list Z);
  invalidate_regs : option (list Z);
  flags_type : option string
}.

(** [reg_info->kinds[kind]] *)
Definition reg_num (kind : RegisterKind) (reg_info : RegisterInfo) : Z :=
  nth (kind_index kind) (kinds reg_info) 0.

(** Modelled from the spec: [lldb_private::Status] (Status.h is missing).
    A default-constructed status reports success; any other status
    carries an error message. *)
Inductive Status :=
  | Status_default
  | Status_error (msg : string).

Definition Success (s : Status) : bool :=
  match s with
  | Status_default => true
  | Status_error _ => false
  end.

(** *** Unwind plans (lldb/Symbol/UnwindPlan.h is missing) *)

(** Modelled from the spec: the CFA rule of a row, "base register +
    constant offset"; a fresh row has no rule yet. *)
Inductive FAValue :=
  | unspecified
  | isRegisterPlusOffset (reg_num : Z) (offset : Z).

Definition SetIsRegisterPlusOffset (reg_num offset : Z) (_ : FAValue)
  : FAValue :=
  isRegisterPlusOffset reg_num offset.

(** Modelled from the spec: how a register of the caller's frame is
    recovered: "located at CFA plus signed offset, value must be read
    from memory", or "value equals CFA plus signed offset, computed
    directly". *)
Inductive RestoreType :=
  | atCFAPlusOffset (offset : Z)
  | isCFAPlusOffset (offset : Z).

(** Modelled from the spec: a recovery rule with its boolean "rule is
    definite" flag, which is the third argument of the two setters
    below. *)
Record RegisterLocation := {
  restore : RestoreType;
  definite : bool
}.

(** Modelled from the spec: [UnwindPlan::Row], one CFA rule and a
    recovery rule per register of interest, keyed by register number. *)
Record Row := {
  m_cfa_value : FAValue;
  m_register_locations : gmap Z RegisterLocation
}.

(** [UnwindPlan::Row row;] *)
Definition Row_new : Row :=
  {| m_cfa_value := unspecified; m_register_locations := ∅ |}.

(** [row.GetCFAValue().f(...)]: [GetCFAValue] hands out a reference to
    the row's CFA rule, which [f] then overwrites. *)
Definition GetCFAValue (f : FAValue → FAValue) (row : Row) : Row :=
  {| m_cfa_value := f (m_cfa_value row);
     m_register_locations := m_register_locations row |}.

Definition SetRegisterLocationToAtCFAPlusOffset
    (reg_num offset : Z) (flag : bool) (row : Row) : Row :=
  {| m_cfa_value := m_cfa_value row;
     m_register_locations :=
       <[reg_num := {| restore := atCFAPlusOffset offset;
                       definite := flag |}]> (m_register_locations row) |}.

Definition SetRegisterLocationToIsCFAPlusOffset
    (reg_num offset : Z) (flag : bool) (row : Row) : Row :=
  {| m_cfa_value := m_cfa_value row;
     m_register_locations :=
       <[reg_num := {| restore := isCFAPlusOffset offset;
                       definite := flag |}]> (m_register_locations row) |}.

(** Modelled from the spec: [UnwindPlan], an ordered sequence of rows, a
    provenance label, a flag "derived from compiler-emitted metadata"
    and a flag "valid at every instruction address", together with the
    numbering scheme its register numbers are expressed in. *)
Record UnwindPlan := {
  m_register_kind : RegisterKind;
  m_row_list : list Row;
  m_source_name : string;
  m_plan_is_sourced_from_compiler : LazyBool;
  m_plan_is_valid_at_all_instruction_locations : LazyBool
}.

(** [std::make_shared<UnwindPlan>(reg_kind)]: no rows, no label, both
    flags undetermined. *)
Definition UnwindPlan_new (reg_kind : RegisterKind) : UnwindPlan :=
  {| m_register_kind := reg_kind;
     m_row_list := [];
     m_source_name := "";
     m_plan_is_sourced_from_compiler := eLazyBoolCalculate;
     m_plan_is_valid_at_all_instruction_locations := eLazyBoolCalculate |}.

Definition AppendRow (row : Row) (plan : UnwindPlan) : UnwindPlan :=
  {| m_register_kind := m_register_kind plan;
     m_row_list := m_row_list plan ++ [row];
     m_source_name := m_source_name plan;
     m_plan_is_sourced_from_compiler :=
       m_plan_is_sourced_from_compiler plan;
     m_plan_is_valid_at_all_instruction_locations :=
       m_plan_is_valid_at_all_instruction_locations plan |}.

Definition SetSourceName (label : string) (plan : UnwindPlan)
  : UnwindPlan :=
  {| m_register_kind := m_register_kind plan;
     m_row_list := m_row_list plan;
     m_source_name := label;
     m_plan_is_sourced_from_compiler :=
       m_plan_is_sourced_from_compiler plan;
     m_plan_is_valid_at_all_instruction_locations :=
       m_plan_is_valid_at_all_instruction_locations plan |}.

Definition SetSourcedFromCompiler (from_compiler : LazyBool)
    (plan : UnwindPlan) : UnwindPlan :=
  {| m_register_kind := m_register_kind plan;
     m_row_list := m_row_list plan;
     m_source_name := m_source_name plan;
     m_plan_is_sourced_from_compiler := from_compiler;
     m_plan_is_valid_at_all_instruction_locations :=
       m_plan_is_valid_at_all_instruction_locations plan |}.

Definition SetUnwindPlanValidAtAllInstructions (valid_at_all : LazyBool)
    (plan : UnwindPlan) : UnwindPlan :=
  {| m_register_kind := m_register_kind plan;
     m_row_list := m_row_list plan;
     m_source_name := m_source_name plan;
     m_plan_is_sourced_from_compiler :=
       m_plan_is_sourced_from_compiler plan;
     m_plan_is_valid_at_all_instruction_locations := valid_at_all |}.

End lldb.

Import lldb.

(** ** ABISysV_mos.cpp *)

(** [enum dwarf_regnums]: the register numbers, shared by the register
    table and by the unwind plans.  The enumerators are the fields of a
    class, so that the code below reads as in the source and can be
    studied under every numbering; [mos_dwarf_regnums] is the numbering of
    the source. *)
Class dwarf_regnums := {
  dwarf_a : Z;
  dwarf_x : Z;
  dwarf_y : Z;
  dwarf_p : Z;
  dwarf_sp : Z;
  dwarf_pc : Z
}.

(** [dwarf_a = 0], and every following enumerator is its predecessor
    plus one. *)
Definition mos_dwarf_regnums : dwarf_regnums :=
  {| dwarf_a := 0;
     dwarf_x := 1;
     dwarf_y := 2;
     dwarf_p := 3;
     dwarf_sp := 4;
     dwarf_pc := 5 |}.

Section ABISysV_mos.

Context `{D : defines} `{E : dwarf_regnums}.

(** The object's state is that of the base class [RegInfoBasedABI],
    which none of the modelled member functions reads or writes. *)
Context {ABISysV_mos : Type}.

(** The host's types that the stubs receive and hand back untouched. *)
Context {Thread Value StackFrame ValueObject CompilerType : Type}.

Definition g_register_infos : list RegisterInfo :=
  [ {| name := "a";
       alt_name := None;
       byte_size := 1;
       byte_offset := 0;
       encoding := eEncodingUint;
       format := eFormatHex;
       kinds := [dwarf_a; dwarf_a; LLDB_INVALID_REGNUM;
                 LLDB_INVALID_REGNUM; LLDB_INVALID_REGNUM];
       value_regs := None;
       invalidate_regs := None;
       flags_type := None |};
    {| name := "x";
       alt_name := None;
       byte_size := 1;
       byte_offset := 0;
       encoding := eEncodingUint;
       format := eFormatHex;
       kinds := [dwarf_x; dwarf_x; LLDB_INVALID_REGNUM;
                 LLDB_INVALID_REGNUM; LLDB_INVALID_REGNUM];
       value_regs := None;
       invalidate_regs := None;
       flags_type := None |};
    {| name := "y";
       alt_name := None;
       byte_size := 1;
       byte_offset := 0;
       encoding := eEncodingUint;
       format := eFormatHex;
       kinds := [dwarf_y; dwarf_y; LLDB_INVALID_REGNUM;
                 LLDB_INVALID_REGNUM; LLDB_INVALID_REGNUM];
       value_regs := None;
       invalidate_regs := None;
       flags_type := None |};
    {| name := "p";
       alt_name := Some "flags";
       byte_size := 1;
       byte_offset := 0;
       encoding := eEncodingUint;
       format := eFormatHex;
       kinds := [dwarf_p; dwarf_p; LLDB_REGNUM_GENERIC_FLAGS;
                 LLDB_INVALID_REGNUM; LLDB_INVALID_REGNUM];
       value_regs := None;
       invalidate_regs := None;
       flags_type := None |};
    {| name := "sp";
       alt_name := None;
       byte_size := 1;
       byte_offset := 0;
       encoding := eEncodingUint;
       format := eFormatHex;
       kinds := [dwarf_sp; dwarf_sp; LLDB_REGNUM_GENERIC_SP;
                 LLDB_INVALID_REGNUM; LLDB_INVALID_REGNUM];
       value_regs := None;
       invalidate_regs := None;
       flags_type := None |};
    {| name := "pc";
       alt_name := None;
       byte_size := 2;
       byte_offset := 0;
       encoding := eEncodingUint;
       format := eFormatHex;
       kinds := [dwarf_pc; dwarf_pc; LLDB_REGNUM_GENERIC_PC;
                 LLDB_INVALID_REGNUM; LLDB_INVALID_REGNUM];
       value_regs := None;
       invalidate_regs := None;
       flags_type := None |} ].

(** [sizeof(g_register_infos) / sizeof(RegisterInfo)] *)
Definition k_num_register_infos : Z :=
  Z.of_nat (length g_register_infos).

(** [count] is an out-parameter: its value on entry is overwritten. *)
Definition GetRegisterInfoArray (this : ABISysV_mos) (count : Z)
  : list RegisterInfo * Z :=
  let count := k_num_register_infos in
  (g_register_infos, count).

Definition GetRedZoneSize (this : ABISysV_mos) : Z := 0.

Definition PrepareTrivialCall (this : ABISysV_mos) (thread : Thread)
    (sp pc ra : Z) (args : list Z) : bool * Thread :=
  (false, thread).

Definition GetArgumentValues (this : ABISysV_mos) (thread : Thread)
    (values : list Value) : bool * Thread * list Value :=
  (false, thread, values).

Definition SetReturnValueObject (this : ABISysV_mos)
    (frame_sp : option StackFrame) (new_value_sp : option ValueObject)
  : Status * option StackFrame * option ValueObject :=
  (Status_default, frame_sp, new_value_sp).

Definition GetReturnValueObjectSimple (this : ABISysV_mos)
    (thread : Thread) (return_compiler_type : CompilerType)
  : option ValueObject * Thread * CompilerType :=
  let return_valobj_sp : option ValueObject := None in
  (return_valobj_sp, thread, return_compiler_type).

Definition GetReturnValueObjectImpl (this : ABISysV_mos)
    (thread : Thread) (return_compiler_type : CompilerType)
  : option ValueObject * Thread * CompilerType :=
  let return_valobj_sp : option ValueObject := None in
  (return_valobj_sp, thread, return_compiler_type).

Definition CreateFunctionEntryUnwindPlan (this : ABISysV_mos)
  : UnwindPlan :=
  let sp_reg_num := dwarf_sp in
  let pc_reg_num := dwarf_pc in
  let row := Row_new in
  let row := GetCFAValue (SetIsRegisterPlusOffset sp_reg_num 2) row in
  let row := SetRegisterLocationToAtCFAPlusOffset pc_reg_num (-2) true row in
  let row := SetRegisterLocationToIsCFAPlusOffset sp_reg_num 0 true row in
  let plan_sp := UnwindPlan_new eRegisterKindDWARF in
  let plan_sp := AppendRow row plan_sp in
  let plan_sp := SetSourceName "mos 6502 at-func-entry default" plan_sp in
  let plan_sp := SetSourcedFromCompiler eLazyBoolNo plan_sp in
  plan_sp.

Definition CreateDefaultUnwindPlan (this : ABISysV_mos) : UnwindPlan :=
  let sp_reg_num := dwarf_sp in
  let pc_reg_num := dwarf_pc in
  let row := Row_new in
  let row := GetCFAValue (SetIsRegisterPlusOffset sp_reg_num 2) row in
  let row := SetRegisterLocationToAtCFAPlusOffset pc_reg_num (-2) true row in
  let row := SetRegisterLocationToIsCFAPlusOffset sp_reg_num 0 true row in
  let plan_sp := UnwindPlan_new eRegisterKindDWARF in
  let plan_sp := AppendRow row plan_sp in
  let plan_sp := SetSourceName "mos 6502 default unwind plan" plan_sp in
  let plan_sp := SetSourcedFromCompiler eLazyBoolNo plan_sp in
  let plan_sp := SetUnwindPlanValidAtAllInstructions eLazyBoolNo plan_sp in
  plan_sp.

(** [reg_info] is a pointer and may be null. *)
Definition RegisterIsCalleeSaved (this : ABISysV_mos)
    (reg_info : option RegisterInfo) : bool :=
  false.

Definition RegisterIsVolatile (this : ABISysV_mos)
    (reg_info : option RegisterInfo) : bool :=
  negb (RegisterIsCalleeSaved this reg_info).

(** ** ABISysV_mos.h *)

Definition CallFrameAddressIsValid (this : ABISysV_mos) (cfa : Z) : bool :=
  negb (cfa =? 0).

Definition CodeAddressIsValid (this : ABISysV_mos) (pc : Z) : bool :=
  pc <=? 0xFFFF.

Definition GetStackFrameSize (this : ABISysV_mos) : Z := 256.

End ABISysV_mos.

(** ** Reading the register table

    What a consumer of the table and of the plans does with them: it looks
    a register up by its number under a numbering scheme.  These
    definitions state the properties below; they are not part of the
    plugin. *)

(** No two of the generic roles share a number, and the "invalid" padding
    is none of them. *)
Definition generic_roles_distinct `{D : defines} : Prop :=
  NoDup [LLDB_REGNUM_GENERIC_PC; LLDB_REGNUM_GENERIC_SP;
         LLDB_REGNUM_GENERIC_FLAGS; LLDB_INVALID_REGNUM].

(** One assignment of the four macros with distinct values, to show that
    [generic_roles_distinct] can be met. *)
Definition sample_defines : defines :=
  {| LLDB_INVALID_REGNUM := 0xFFFFFFFF;
     LLDB_REGNUM_GENERIC_PC := 0;
     LLDB_REGNUM_GENERIC_SP := 1;
     LLDB_REGNUM_GENERIC_FLAGS := 4 |}.

Definition has_reg_num (kind : RegisterKind) (num : Z)
    (reg_info : RegisterInfo) : bool :=
  reg_num kind reg_info =? num.

(** The entries of [table] whose number under [kind] is [num], in table
    order. *)
Definition registers_with (kind : RegisterKind) (num : Z)
    (table : list RegisterInfo) : list RegisterInfo :=
  List.filter (has_reg_num kind num) table.

(** ** The unwind rules as the specification derives them

    The specification asks that the register numbers of the plans be
    "re-derivable purely from the two generic register roles": the
    register of a role is the one table entry carrying it, and its number
    is read off that entry under the plan's numbering scheme. *)
Definition spec_reg_num_of_role (role : Z) (kind : RegisterKind)
    (table : list RegisterInfo) : option Z :=
  match registers_with eRegisterKindGeneric role table with
  | [reg_info] => Some (reg_num kind reg_info)
  | _ => None
  end.

(** The single row of the specification: CFA = stack pointer + 2, program
    counter read from CFA - 2, stack pointer equal to CFA + 0, both rules
    definite. *)
Definition spec_unwind_row (sp_reg_num pc_reg_num : Z) : Row :=
  {| m_cfa_value := isRegisterPlusOffset sp_reg_num 2;
     m_register_locations :=
       <[sp_reg_num := {| restore := isCFAPlusOffset 0; definite := true |}]>
         (<[pc_reg_num := {| restore := atCFAPlusOffset (-2);
                             definite := true |}]> ∅) |}.

Definition spec_unwind_row_of_table `{D : defines} (kind : RegisterKind)
    (table : list RegisterInfo) : option Row :=
  sp_reg_num ← spec_reg_num_of_role LLDB_REGNUM_GENERIC_SP kind table;
  pc_reg_num ← spec_reg_num_of_role LLDB_REGNUM_GENERIC_PC kind table;
  Some (spec_unwind_row sp_reg_num pc_reg_num).

(** ** ABISysV_mos.cpp: the factory *)

Section CreateInstance.

(** [llvm::Triple] and [lldb_private::ArchSpec] are missing
    (llvm/TargetParser/Triple.h, lldb/Utility/ArchSpec.h): the factory
    only reads the architecture of the triple of [arch] and compares it
    with the enumerator [llvm::Triple::mos].  [MakeMCRegisterInfo] is
    inherited from the base class and is missing too. *)
Context {ArchType : Type} `{EqDecision ArchType} (mos : ArchType).
Context {Triple ArchSpec : Type}.
Context (GetTriple : ArchSpec → Triple) (getArch : Triple → ArchType).
Context {ProcessSP MCRegisterInfo : Type}.
Context (MakeMCRegisterInfo : ArchSpec → MCRegisterInfo).

(** The object built by the constructor inherited from
    [RegInfoBasedABI], from the two arguments the factory passes. *)
Record ABISysV_mos_object := new_ABISysV_mos {
  m_process_sp : ProcessSP;
  m_mc_register_info : MCRegisterInfo
}.

(** [ABISP()] is the null pointer. *)
Definition CreateInstance (process_sp : ProcessSP) (arch : ArchSpec)
  : option ABISysV_mos_object :=
  if decide (getArch (GetTriple arch) = mos) then
    Some (new_ABISysV_mos process_sp (MakeMCRegisterInfo arch))
  else
    None.

End CreateInstance.

(** ** Reading an unwind row *)

(** Modelled from the spec: the address a CFA rule "base register +
    constant offset" denotes, given the values of the registers; a row
    without a CFA rule denotes none. *)
Definition FAValue_address (read_register : Z → Z) (value : FAValue)
  : option Z :=
  match value with
  | unspecified => None
  | isRegisterPlusOffset reg offset => Some (read_register reg + offset)
  end.

(** The enumerators of [dwarf_regnums] in declaration order. *)
Definition dwarf_regnums_list `{E : dwarf_regnums} : list Z :=
  [dwarf_a; dwarf_x; dwarf_y; dwarf_p; dwarf_sp; dwarf_pc].

(** The names a register answers to: its primary name and, when it has
    one, its alternate name. *)
Definition register_names (reg_info : RegisterInfo) : list string :=
  name reg_info :: option_list (alt_name reg_info).

(** ** Auxiliary facts *)

Lemma generic_roles_distinct_neq `{D : defines} :
  generic_roles_distinct →
  LLDB_REGNUM_GENERIC_PC ≠ LLDB_REGNUM_GENERIC_SP
  ∧ LLDB_REGNUM_GENERIC_PC ≠ LLDB_REGNUM_GENERIC_FLAGS
  ∧ LLDB_REGNUM_GENERIC_PC ≠ LLDB_INVALID_REGNUM
  ∧ LLDB_REGNUM_GENERIC_SP ≠ LLDB_REGNUM_GENERIC_FLAGS
  ∧ LLDB_REGNUM_GENERIC_SP ≠ LLDB_INVALID_REGNUM
  ∧ LLDB_REGNUM_GENERIC_FLAGS ≠ LLDB_INVALID_REGNUM.
Proof.
  unfold generic_roles_distinct.
  rewrite !NoDup_cons, !not_elem_of_cons.
  intros (Hpc & Hsp & Hflags & _).
  destruct Hpc as (? & ? & ? & _), Hsp as (? & ? & _), Hflags as (? & _).
  done.
Qed.

Lemma sample_defines_distinct : generic_roles_distinct (D := sample_defines).
Proof.
  unfold generic_roles_distinct; simpl.
  rewrite !NoDup_cons, !not_elem_of_cons.
  repeat split; try discriminate; try apply not_elem_of_nil.
  apply NoDup_nil_2.
Defined.

(** Deciding a role test of the table: equal numbers by reflexivity,
    different ones by the distinctness of the roles. *)
Lemma eqb_role_neq (a b : Z) : a ≠ b → (a =? b) = false ∧ (b =? a) = false.
Proof. intros Hne. split; apply Z.eqb_neq; congruence. Qed.

Ltac role_tests H :=
  destruct (generic_roles_distinct_neq H) as (Hps & Hpf & Hpi & Hsf & Hsi & Hfi);
  destruct (eqb_role_neq _ _ Hps) as [? ?];
  destruct (eqb_role_neq _ _ Hpf) as [? ?];
  destruct (eqb_role_neq _ _ Hpi) as [? ?];
  destruct (eqb_role_neq _ _ Hsf) as [? ?];
  destruct (eqb_role_neq _ _ Hsi) as [? ?];
  destruct (eqb_role_neq _ _ Hfi) as [? ?].

Ltac filter_roles :=
  unfold registers_with, g_register_infos, has_reg_num, reg_num; simpl;
  repeat match goal with
         | Heq : (_ =? _) = false |- _ => rewrite !Heq
         end;
  rewrite ?Z.eqb_refl; simpl.

Lemma table_role_holders `{D : defines} `{E : dwarf_regnums} :
  generic_roles_distinct →
  name <$> registers_with eRegisterKindGeneric LLDB_REGNUM_GENERIC_PC
             g_register_infos = ["pc"]
  ∧ name <$> registers_with eRegisterKindGeneric LLDB_REGNUM_GENERIC_SP
               g_register_infos = ["sp"]
  ∧ name <$> registers_with eRegisterKindGeneric LLDB_REGNUM_GENERIC_FLAGS
               g_register_infos = ["p"]
  ∧ name <$> registers_with eRegisterKindGeneric LLDB_INVALID_REGNUM
               g_register_infos = ["a"; "x"; "y"].
Proof.
  intros H. role_tests H.
  repeat split; filter_roles; reflexivity.
Qed.

Lemma table_role_numbers `{D : defines} `{E : dwarf_regnums}
    (kind : RegisterKind) :
  generic_roles_distinct →
  spec_reg_num_of_role LLDB_REGNUM_GENERIC_SP kind g_register_infos
  = Some (nth (kind_index kind)
            [dwarf_sp; dwarf_sp; LLDB_REGNUM_GENERIC_SP;
             LLDB_INVALID_REGNUM; LLDB_INVALID_REGNUM] 0)
  ∧ spec_reg_num_of_role LLDB_REGNUM_GENERIC_PC kind g_register_infos
    = Some (nth (kind_index kind)
              [dwarf_pc; dwarf_pc; LLDB_REGNUM_GENERIC_PC;
               LLDB_INVALID_REGNUM; LLDB_INVALID_REGNUM] 0).
Proof.
  intros H. role_tests H.
  unfold spec_reg_num_of_role.
  split; filter_roles; reflexivity.
Qed.

(** ** Properties of the unwind plans *)

Section unwind_plans.

Context `{D : defines} {ABISysV_mos : Type}.

(** C1.  With the register numbering of the source, the function-entry
    plan and the default plan each hold exactly one row, and it is the
    same row in both: its CFA is the register whose only table entry is
    "sp", plus 2; the register whose only table entry is "pc", of byte
    size 2, is read from memory at CFA - 2, a definite rule; the stack
    pointer equals CFA + 0, a definite rule; the row has no further
    rule.  Both plans are marked as not sourced from the compiler, the
    default plan is marked as not valid at all instructions, and the
    two provenance labels differ. *)
Theorem unwind_plans_share_one_row (this : ABISysV_mos) :
  let entry := CreateFunctionEntryUnwindPlan (E := mos_dwarf_regnums) this in
  let default := CreateDefaultUnwindPlan (E := mos_dwarf_regnums) this in
  let table := g_register_infos (E := mos_dwarf_regnums) in
  ∃ (row : Row) (sp_reg_num pc_reg_num : Z),
    m_row_list entry = [row]
    ∧ m_row_list default = [row]
    ∧ m_register_kind entry = eRegisterKindDWARF
    ∧ m_register_kind default = eRegisterKindDWARF
    ∧ name <$> registers_with eRegisterKindDWARF sp_reg_num table = ["sp"]
    ∧ name <$> registers_with eRegisterKindDWARF pc_reg_num table = ["pc"]
    ∧ byte_size <$> registers_with eRegisterKindDWARF pc_reg_num table = [2]
    ∧ m_cfa_value row = isRegisterPlusOffset sp_reg_num 2
    ∧ m_register_locations row
      = {[ pc_reg_num := {| restore := atCFAPlusOffset (-2);
                            definite := true |};
           sp_reg_num := {| restore := isCFAPlusOffset 0;
                            definite := true |} ]}
    ∧ m_plan_is_sourced_from_compiler entry = eLazyBoolNo
    ∧ m_plan_is_sourced_from_compiler default = eLazyBoolNo
    ∧ m_plan_is_valid_at_all_instruction_locations default = eLazyBoolNo
    ∧ m_source_name entry ≠ m_source_name default.
Proof.
  intros entry default table.
  exists (spec_unwind_row 4 5), 4, 5.
  subst entry default table.
  unfold CreateFunctionEntryUnwindPlan, CreateDefaultUnwindPlan.
  cbn [AppendRow SetSourceName SetSourcedFromCompiler
       SetUnwindPlanValidAtAllInstructions UnwindPlan_new
       m_row_list m_register_kind m_source_name
       m_plan_is_sourced_from_compiler
       m_plan_is_valid_at_all_instruction_locations app].
  repeat split; try reflexivity.
  discriminate.
Qed.

End unwind_plans.

(** ** Properties of the register table *)

Section register_table.

Context `{D : defines} `{E : dwarf_regnums} {ABISysV_mos : Type}.

(** C2.  [GetRegisterInfoArray] reports the count 6 and hands out a table
    of 6 entries named, in this order, a, x, y, p (alias "flags"), sp and
    pc.  Provided the generic role numbers are distinct, the generic
    ProgramCounter role is carried by pc alone, StackPointer by sp alone
    and Flags by p alone, while a, x and y carry no role.  The byte size
    of pc is 2 and that of every other register is 1. *)
Theorem register_table_layout (this : ABISysV_mos) (count : Z) :
  generic_roles_distinct →
  let '(table, count') := GetRegisterInfoArray this count in
  count' = 6
  ∧ length table = 6%nat
  ∧ name <$> table = ["a"; "x"; "y"; "p"; "sp"; "pc"]
  ∧ alt_name <$> table = [None; None; None; Some "flags"; None; None]
  ∧ name <$> registers_with eRegisterKindGeneric LLDB_REGNUM_GENERIC_PC
               table = ["pc"]
  ∧ name <$> registers_with eRegisterKindGeneric LLDB_REGNUM_GENERIC_SP
               table = ["sp"]
  ∧ name <$> registers_with eRegisterKindGeneric LLDB_REGNUM_GENERIC_FLAGS
               table = ["p"]
  ∧ name <$> registers_with eRegisterKindGeneric LLDB_INVALID_REGNUM
               table = ["a"; "x"; "y"]
  ∧ byte_size <$> table = [1; 1; 1; 1; 1; 2].
Proof.
  intros Hdistinct.
  unfold GetRegisterInfoArray, k_num_register_infos.
  destruct (table_role_holders Hdistinct) as (Hpc & Hsp & Hflags & Hnone).
  repeat split; done.
Qed.

(** C3.  Under every numbering of [dwarf_regnums], and provided the
    generic role numbers are distinct: exactly one table entry carries
    the generic StackPointer role and exactly one the generic
    ProgramCounter role; both plans are expressed in the DWARF scheme;
    and the single row of each plan is the row the specification derives
    from the DWARF numbers of these two entries, so that the register of
    the CFA rule and of the stack-pointer rule is the number of the
    StackPointer entry and the register of the program-counter rule is
    the number of the ProgramCounter entry. *)
Theorem plan_registers_follow_generic_roles (this : ABISysV_mos) :
  generic_roles_distinct →
  let entry := CreateFunctionEntryUnwindPlan this in
  let default := CreateDefaultUnwindPlan this in
  ∃ (sp_info pc_info : RegisterInfo),
    registers_with eRegisterKindGeneric LLDB_REGNUM_GENERIC_SP
      g_register_infos = [sp_info]
    ∧ registers_with eRegisterKindGeneric LLDB_REGNUM_GENERIC_PC
        g_register_infos = [pc_info]
    ∧ m_register_kind entry = eRegisterKindDWARF
    ∧ m_register_kind default = eRegisterKindDWARF
    ∧ m_row_list entry
      = [spec_unwind_row (reg_num eRegisterKindDWARF sp_info)
           (reg_num eRegisterKindDWARF pc_info)]
    ∧ m_row_list default
      = [spec_unwind_row (reg_num eRegisterKindDWARF sp_info)
           (reg_num eRegisterKindDWARF pc_info)]
    ∧ spec_unwind_row_of_table (m_register_kind entry) g_register_infos
      = head (m_row_list entry)
    ∧ spec_unwind_row_of_table (m_register_kind default) g_register_infos
      = head (m_row_list default).
Proof.
  intros Hdistinct entry default.
  destruct (table_role_numbers eRegisterKindDWARF Hdistinct)
    as [Hsp Hpc].
  role_tests Hdistinct.
  eexists _, _.
  split; [filter_roles; reflexivity |].
  split; [filter_roles; reflexivity |].
  subst entry default.
  unfold spec_unwind_row_of_table; simpl m_register_kind.
  rewrite Hsp, Hpc.
  repeat split; reflexivity.
Qed.

(** C10.  Every descriptor of the table has byte offset 0, so any two
    descriptors have the same offset. *)
Theorem register_offsets_all_zero :
  byte_offset <$> g_register_infos = replicate 6 0
  ∧ Forall (λ reg_info, byte_offset reg_info = 0) g_register_infos
  ∧ Forall (λ reg_info,
      Forall (λ reg_info', byte_offset reg_info = byte_offset reg_info')
        g_register_infos) g_register_infos.
Proof.
  split; [reflexivity |].
  split; unfold g_register_infos; repeat constructor.
Qed.

End register_table.

(** C2 at the numbering of the source and at [sample_defines]. *)
Lemma register_table_layout_witness :
  generic_roles_distinct (D := sample_defines)
  ∧ snd (GetRegisterInfoArray (D := sample_defines) (E := mos_dwarf_regnums)
           tt 0) = 6.
Proof.
  split; [exact sample_defines_distinct |].
  pose proof (register_table_layout (D := sample_defines)
                (E := mos_dwarf_regnums) tt 0 sample_defines_distinct) as H.
  simpl in H. exact (proj1 H).
Defined.

(** C3 at the numbering of the source and at [sample_defines]. *)
Lemma plan_registers_follow_generic_roles_witness :
  generic_roles_distinct (D := sample_defines)
  ∧ spec_unwind_row_of_table (D := sample_defines) eRegisterKindDWARF
      (g_register_infos (D := sample_defines) (E := mos_dwarf_regnums))
    = head (m_row_list
              (CreateDefaultUnwindPlan (E := mos_dwarf_regnums) tt)).
Proof.
  split; [exact sample_defines_distinct |].
  destruct (plan_registers_follow_generic_roles (D := sample_defines)
              (E := mos_dwarf_regnums) tt sample_defines_distinct)
    as (sp_info & pc_info & _ & _ & _ & _ & _ & _ & _ & H).
  exact H.
Defined.

(** ** Properties of the predicates and of the constants *)

Section predicates.

Context {ABISysV_mos : Type} (this : ABISysV_mos).

(** C4.  A code address is valid exactly when it is at most 0xFFFF; in
    particular 0x0000 and 0xFFFF are valid and 0x10000 is not. *)
Theorem CodeAddressIsValid_iff (pc : Z) :
  (CodeAddressIsValid this pc = true ↔ pc ≤ 0xFFFF)
  ∧ CodeAddressIsValid this 0x0000 = true
  ∧ CodeAddressIsValid this 0xFFFF = true
  ∧ CodeAddressIsValid this 0x10000 = false.
Proof.
  unfold CodeAddressIsValid.
  split; [apply Z.leb_le |].
  repeat split.
Qed.

(** C5.  A frame address is valid exactly when it is not zero: zero is
    rejected, and every other value is accepted, also one outside the
    stack page 0x0100-0x01FF such as 0x200. *)
Theorem CallFrameAddressIsValid_iff (cfa : Z) :
  (CallFrameAddressIsValid this cfa = true ↔ cfa ≠ 0)
  ∧ CallFrameAddressIsValid this 0 = false
  ∧ CallFrameAddressIsValid this 1 = true
  ∧ CallFrameAddressIsValid this 0x200 = true.
Proof.
  unfold CallFrameAddressIsValid.
  split; [| repeat split].
  rewrite negb_true_iff. apply Z.eqb_neq.
Qed.

(** C6.  Every register-info argument, a null pointer included, is
    classified volatile and not callee-saved; so is every entry of the
    register table. *)
Theorem RegisterIsVolatile_always (reg_info : option RegisterInfo) :
  RegisterIsVolatile this reg_info = true
  ∧ RegisterIsCalleeSaved this reg_info = false
  ∧ ∀ (D : defines) (E : dwarf_regnums),
      Forall (λ reg_info',
        RegisterIsVolatile this (Some reg_info') = true
        ∧ RegisterIsCalleeSaved this (Some reg_info') = false)
        g_register_infos.
Proof.
  repeat split.
  intros D E. unfold g_register_infos. repeat constructor.
Qed.

(** C9.  The stack frame size is 256 and the red zone size is 0, for
    every object. *)
Theorem GetStackFrameSize_GetRedZoneSize :
  GetStackFrameSize this = 256 ∧ GetRedZoneSize this = 0.
Proof. split; reflexivity. Qed.

End predicates.

(** ** Properties of the calling-convention stubs *)

Section stubs.

Context {ABISysV_mos Thread Value StackFrame ValueObject CompilerType : Type}.
Context (this : ABISysV_mos).

(** C7, as amended.  [GetArgumentValues] reports failure and hands the
    thread and the value list back as it received them; hence the list
    is empty on return exactly when it was empty on entry. *)
Theorem GetArgumentValues_fails_list_unchanged
    (thread : Thread) (values : list Value) :
  let '(ok, thread', values') := GetArgumentValues this thread values in
  ok = false
  ∧ thread' = thread
  ∧ values' = values
  ∧ (values' = [] ↔ values = []).
Proof. simpl. repeat split; done. Qed.

(** C8.  [PrepareTrivialCall] reports failure and hands the thread back
    as it received it, whatever the stack pointer, the function address,
    the return address and the arguments; [SetReturnValueObject] returns
    a status that reports success and hands the frame and the value back
    as it received them; [GetReturnValueObjectImpl] returns a null value
    object, whatever the requested type, and hands the thread and the
    type back as it received them. *)
Theorem calling_convention_stubs
    (thread : Thread) (sp pc ra : Z) (args : list Z)
    (frame_sp : option StackFrame) (new_value_sp : option ValueObject)
    (return_compiler_type : CompilerType) :
  PrepareTrivialCall this thread sp pc ra args = (false, thread)
  ∧ (let '(status, frame_sp', new_value_sp') :=
       SetReturnValueObject this frame_sp new_value_sp in
     Success status = true
     ∧ frame_sp' = frame_sp
     ∧ new_value_sp' = new_value_sp)
  ∧ GetReturnValueObjectImpl (ValueObject := ValueObject) this thread
      return_compiler_type
    = (None, thread, return_compiler_type).
Proof. repeat split. Qed.

End stubs.

(** C7, as stated, at a list of one value: the list comes back unchanged,
    hence not empty. *)
Lemma GetArgumentValues_keeps_nonempty_list :
  let '(ok, thread', values') :=
    GetArgumentValues (Thread := unit) (Value := Z) tt tt [7] in
  ¬ (ok = false ∧ values' = [7] ∧ values' = []).
Proof. simpl. intros (_ & _ & Hempty). discriminate Hempty. Qed.

(** ** The plans under another numbering

    A numbering in which sp is 40 and pc is 50: the table and the plans
    change together, the CFA register of the default plan being the DWARF
    number of "sp" in the renumbered table. *)
Example default_plan_renumbered :
  let E := {| dwarf_a := 10; dwarf_x := 20; dwarf_y := 30;
              dwarf_p := 60; dwarf_sp := 40; dwarf_pc := 50 |} in
  m_cfa_value <$> m_row_list (CreateDefaultUnwindPlan (E := E) tt)
  = [isRegisterPlusOffset 40 2]
  ∧ name <$> registers_with eRegisterKindDWARF 40
               (g_register_infos (D := sample_defines) (E := E)) = ["sp"]
  ∧ name <$> registers_with eRegisterKindDWARF 50
               (g_register_infos (D := sample_defines) (E := E)) = ["pc"].
Proof. repeat split. Qed.

(** ** Further properties of the register table *)

Lemma dwarf_regnums_distinct_neq `{E : dwarf_regnums} :
  NoDup dwarf_regnums_list →
  dwarf_a ≠ dwarf_x ∧ dwarf_a ≠ dwarf_y ∧ dwarf_a ≠ dwarf_p
  ∧ dwarf_a ≠ dwarf_sp ∧ dwarf_a ≠ dwarf_pc
  ∧ dwarf_x ≠ dwarf_y ∧ dwarf_x ≠ dwarf_p ∧ dwarf_x ≠ dwarf_sp
  ∧ dwarf_x ≠ dwarf_pc
  ∧ dwarf_y ≠ dwarf_p ∧ dwarf_y ≠ dwarf_sp ∧ dwarf_y ≠ dwarf_pc
  ∧ dwarf_p ≠ dwarf_sp ∧ dwarf_p ≠ dwarf_pc
  ∧ dwarf_sp ≠ dwarf_pc.
Proof.
  unfold dwarf_regnums_list.
  rewrite !NoDup_cons, !not_elem_of_cons.
  intros H. destruct_and!. repeat split; assumption.
Qed.

Lemma mos_dwarf_regnums_distinct :
  NoDup (dwarf_regnums_list (E := mos_dwarf_regnums)).
Proof.
  unfold dwarf_regnums_list; simpl.
  rewrite !NoDup_cons, !not_elem_of_cons.
  repeat split; try discriminate; try apply not_elem_of_nil.
  apply NoDup_nil_2.
Defined.

(** Decide every number test of a table lookup from the distinctness of
    the enumerators. *)
Ltac number_tests :=
  unfold registers_with, g_register_infos, has_reg_num, reg_num; simpl;
  repeat match goal with
         | |- context [?a =? ?b] =>
             destruct (Z.eqb_spec a b); try congruence; simpl
         end.

Section register_lookup.

Context `{D : defines} `{E : dwarf_regnums}.

(** X1.  When the enumerators of [dwarf_regnums] are pairwise distinct,
    looking a table entry up by its own DWARF number finds that entry
    and no other, and a number that is none of the enumerators finds
    nothing. *)
Theorem lookup_by_dwarf_number :
  NoDup dwarf_regnums_list →
  Forall (λ reg_info,
    registers_with eRegisterKindDWARF
      (reg_num eRegisterKindDWARF reg_info) g_register_infos = [reg_info])
    g_register_infos
  ∧ ∀ num : Z,
      num ∉ dwarf_regnums_list →
      registers_with eRegisterKindDWARF num g_register_infos = [].
Proof.
  intros Hnodup.
  pose proof (dwarf_regnums_distinct_neq Hnodup) as Hneq.
  destruct_and!.
  split.
  - unfold g_register_infos at 2.
    repeat (apply Forall_cons; split); [.. | apply Forall_nil_2];
      number_tests; reflexivity.
  - intros num. unfold dwarf_regnums_list.
    rewrite !not_elem_of_cons. intros Hnum. destruct_and!.
    number_tests; reflexivity.
Qed.

(** X2.  Under every numbering, each descriptor has an identifier for
    each of the [kNumRegisterKinds] schemes, so that no read of
    [kinds] is out of bounds; its number in the first scheme is its DWARF
    number; and its numbers in the last two schemes are the invalid
    register number. *)
Theorem kinds_arrays_shape :
  Forall (λ reg_info,
    length (kinds reg_info) = kNumRegisterKinds
    ∧ reg_num eRegisterKindEHFrame reg_info
      = reg_num eRegisterKindDWARF reg_info
    ∧ reg_num eRegisterKindProcessPlugin reg_info = LLDB_INVALID_REGNUM
    ∧ reg_num eRegisterKindLLDB reg_info = LLDB_INVALID_REGNUM)
    g_register_infos.
Proof. unfold g_register_infos. repeat constructor. Qed.

(** X3.  The names the registers answer to, primary and alternate
    together, are pairwise distinct: a name designates at most one
    register.  There are seven of them, "flags" being the only
    alternate name. *)
Theorem register_names_distinct :
  NoDup (g_register_infos ≫= register_names)
  ∧ g_register_infos ≫= register_names
    = ["a"; "x"; "y"; "p"; "flags"; "sp"; "pc"].
Proof.
  split; [| reflexivity].
  cbn.
  rewrite !NoDup_cons, !not_elem_of_cons.
  repeat split; try discriminate; try apply not_elem_of_nil.
  apply NoDup_nil_2.
Qed.

End register_lookup.

(** X1 at the numbering of the source. *)
Lemma lookup_by_dwarf_number_witness :
  NoDup (dwarf_regnums_list (E := mos_dwarf_regnums))
  ∧ registers_with eRegisterKindDWARF 7
      (g_register_infos (D := sample_defines) (E := mos_dwarf_regnums)) = [].
Proof.
  split; [exact mos_dwarf_regnums_distinct |].
  exact (proj2 (lookup_by_dwarf_number (D := sample_defines)
                  (E := mos_dwarf_regnums) mos_dwarf_regnums_distinct) 7
           ltac:(unfold dwarf_regnums_list; simpl;
                 rewrite !not_elem_of_cons;
                 repeat split; try discriminate; apply not_elem_of_nil)).
Defined.

(** X4.  With the numbering of the source, the DWARF number of a
    descriptor is its position in the table, and the table has one
    descriptor per enumerator. *)
Theorem dwarf_number_is_table_index `{D : defines} :
  reg_num eRegisterKindDWARF <$> g_register_infos (E := mos_dwarf_regnums)
  = seqZ 0 (k_num_register_infos (E := mos_dwarf_regnums))
  ∧ reg_num eRegisterKindDWARF <$> g_register_infos (E := mos_dwarf_regnums)
    = dwarf_regnums_list (E := mos_dwarf_regnums).
Proof. split; reflexivity. Qed.

(** ** Further properties of the unwind plans *)

Section unwind_rules.

Context `{D : defines} `{E : dwarf_regnums} {ABISysV_mos : Type}.
Context (this : ABISysV_mos).

(** X5.  Under every numbering, the plans name no register outside the
    table: in each row of either plan, the register of the CFA rule and
    every register that has a recovery rule is the number, under the
    plan's own numbering scheme, of some table entry. *)
Theorem plans_name_table_registers_only :
  Forall (λ plan,
    Forall (λ row,
      (∃ reg offset,
         m_cfa_value row = isRegisterPlusOffset reg offset
         ∧ reg ∈ reg_num (m_register_kind plan) <$> g_register_infos)
      ∧ ∀ reg, reg ∈ dom (m_register_locations row) →
               reg ∈ reg_num (m_register_kind plan) <$> g_register_infos)
      (m_row_list plan))
    [CreateFunctionEntryUnwindPlan this; CreateDefaultUnwindPlan this].
Proof.
  repeat (apply Forall_cons; split); try apply Forall_nil_2; simpl.
  all: split; [eexists _, _; split; [reflexivity |] |].
  all: try (intros reg; rewrite !dom_insert_L, dom_empty_L;
            rewrite !elem_of_union, !elem_of_singleton;
            intros [-> | [-> | Hempty]];
            [| | by apply elem_of_empty in Hempty]).
  all: rewrite !elem_of_cons; tauto.
Qed.

(** X6.  Under every numbering, the single row of either plan answers a
    query for register [reg] as follows: the stack-pointer rule if [reg]
    is [dwarf_sp]; otherwise the program-counter rule if [reg] is
    [dwarf_pc]; otherwise no rule.  Were the two enumerators equal, the
    stack-pointer rule, set last, would be the one kept.  With the
    numbering of the source, a, x, y and p have no rule. *)
Theorem row_rule_of_register (reg : Z) :
  Forall (λ plan,
    (λ row, m_register_locations row !! reg) <$> m_row_list plan
    = [ if decide (reg = dwarf_sp) then
          Some {| restore := isCFAPlusOffset 0; definite := true |}
        else if decide (reg = dwarf_pc) then
          Some {| restore := atCFAPlusOffset (-2); definite := true |}
        else None ])
    [CreateFunctionEntryUnwindPlan this; CreateDefaultUnwindPlan this]
  ∧ Forall (λ plan,
      Forall (λ row,
        (λ reg_info,
           (name reg_info,
            restore <$> m_register_locations row
                          !! reg_num (m_register_kind plan) reg_info))
          <$> g_register_infos (E := mos_dwarf_regnums)
        = [("a", None); ("x", None); ("y", None); ("p", None);
           ("sp", Some (isCFAPlusOffset 0));
           ("pc", Some (atCFAPlusOffset (-2)))])
        (m_row_list plan))
      [CreateFunctionEntryUnwindPlan (E := mos_dwarf_regnums) this;
       CreateDefaultUnwindPlan (E := mos_dwarf_regnums) this].
Proof.
  split.
  - repeat (apply Forall_cons; split); try apply Forall_nil_2; simpl;
      f_equal; rewrite !lookup_insert;
      repeat case_decide; try congruence; apply lookup_empty.
  - repeat constructor.
Qed.

(** X7.  Under every numbering, the default plan is the function-entry
    plan with the label replaced and the valid-at-all-instructions flag
    set to no: the two functions differ in nothing else. *)
Theorem default_plan_from_entry_plan :
  CreateDefaultUnwindPlan this
  = SetUnwindPlanValidAtAllInstructions eLazyBoolNo
      (SetSourceName "mos 6502 default unwind plan"
         (CreateFunctionEntryUnwindPlan this)).
Proof. reflexivity. Qed.

(** X8.  For a stack pointer that holds an 8-bit value, the CFA either
    plan denotes is that value plus 2; it lies between 2 and 0x101, it
    passes [CallFrameAddressIsValid], and the address CFA - 2 the program
    counter is read from passes [CodeAddressIsValid]. *)
Theorem plan_cfa_is_valid_frame_address (read_register : Z → Z) :
  0 ≤ read_register dwarf_sp ≤ 0xFF →
  Forall (λ plan,
    Forall (λ row,
      ∃ cfa,
        FAValue_address read_register (m_cfa_value row) = Some cfa
        ∧ cfa = read_register dwarf_sp + 2
        ∧ 2 ≤ cfa ≤ 0x101
        ∧ CallFrameAddressIsValid this cfa = true
        ∧ CodeAddressIsValid this (cfa - 2) = true)
      (m_row_list plan))
    [CreateFunctionEntryUnwindPlan this; CreateDefaultUnwindPlan this].
Proof.
  intros Hsp.
  assert (Hne : (read_register dwarf_sp + 2 =? 0) = false)
    by (apply Z.eqb_neq; lia).
  assert (Hle : (read_register dwarf_sp + 2 - 2 <=? 0xFFFF) = true)
    by (apply Z.leb_le; lia).
  repeat (apply Forall_cons; split); try apply Forall_nil_2;
    simpl; eexists; (split; [reflexivity |]);
    unfold CallFrameAddressIsValid, CodeAddressIsValid;
    rewrite Hne, Hle; repeat split; lia.
Qed.

End unwind_rules.

(** X8 with the numbering of the source and a stack pointer of 0xFD. *)
Lemma plan_cfa_is_valid_frame_address_witness :
  0 ≤ 0xFD ≤ 0xFF
  ∧ CallFrameAddressIsValid tt (0xFD + 2) = true.
Proof.
  split; [lia |].
  pose proof (plan_cfa_is_valid_frame_address (E := mos_dwarf_regnums) tt
                (λ _, 0xFD) ltac:(lia)) as H.
  apply Forall_cons in H as [H _]. simpl in H.
  apply Forall_cons in H as [(cfa & _ & -> & _ & Hvalid & _) _].
  exact Hvalid.
Defined.

(** ** Further properties of the address predicates *)

Section address_predicates.

Context {ABISysV_mos : Type} (this : ABISysV_mos).

(** X9.  Every address of the stack page 0x0100-0x01FF is accepted both
    as a frame address and as a code address. *)
Theorem stack_page_addresses_valid (addr : Z) :
  0x0100 ≤ addr ≤ 0x01FF →
  CallFrameAddressIsValid this addr = true
  ∧ CodeAddressIsValid this addr = true.
Proof.
  intros Hpage. unfold CallFrameAddressIsValid, CodeAddressIsValid.
  split.
  - apply negb_true_iff, Z.eqb_neq. lia.
  - apply Z.leb_le. lia.
Qed.

(** X10.  For an unsigned address, [CodeAddressIsValid] holds exactly
    when the address has no bit set above bit 15: masking it with 0xFFFF
    leaves it unchanged, and shifting it right by 16 gives 0. *)
Theorem CodeAddressIsValid_16_bits (pc : Z) :
  0 ≤ pc →
  (CodeAddressIsValid this pc = true ↔ Z.land pc 0xFFFF = pc)
  ∧ (CodeAddressIsValid this pc = true ↔ Z.shiftr pc 16 = 0).
Proof.
  intros Hpc. unfold CodeAddressIsValid.
  rewrite Z.leb_le.
  change 0xFFFF with (Z.ones 16).
  rewrite Z.land_ones, Z.shiftr_div_pow2 by lia.
  change (Z.ones 16) with 65535. change (2 ^ 16) with 65536.
  split; split; intros H.
  - apply Z.mod_small. lia.
  - rewrite <- H. pose proof (Z.mod_pos_bound pc 65536). lia.
  - apply Z.div_small. lia.
  - pose proof (Z.div_mod pc 65536) as Hdm.
    pose proof (Z.mod_pos_bound pc 65536). lia.
Qed.

(** X11.  Both predicates accept an address exactly when it is not zero
    and at most 0xFFFF, and neither predicate implies the other: zero is
    a valid code address but no valid frame address, and 0x10000 is a
    valid frame address but no valid code address. *)
Theorem address_predicates_compared (addr : Z) :
  (CallFrameAddressIsValid this addr && CodeAddressIsValid this addr = true
   ↔ addr ≠ 0 ∧ addr ≤ 0xFFFF)
  ∧ CodeAddressIsValid this 0 = true
  ∧ CallFrameAddressIsValid this 0 = false
  ∧ CallFrameAddressIsValid this 0x10000 = true
  ∧ CodeAddressIsValid this 0x10000 = false.
Proof.
  unfold CallFrameAddressIsValid, CodeAddressIsValid.
  split; [| repeat split].
  rewrite andb_true_iff, negb_true_iff, Z.eqb_neq, Z.leb_le. reflexivity.
Qed.

End address_predicates.

(** X9 at the middle of the stack page. *)
Lemma stack_page_addresses_valid_witness :
  0x0100 ≤ 0x0180 ≤ 0x01FF
  ∧ CallFrameAddressIsValid tt 0x0180 = true
  ∧ CodeAddressIsValid tt 0x0180 = true.
Proof.
  split; [lia |].
  apply (stack_page_addresses_valid tt 0x0180). lia.
Defined.

(** X10 at the address 0x1234. *)
Lemma CodeAddressIsValid_16_bits_witness :
  0 ≤ 0x1234
  ∧ (CodeAddressIsValid tt 0x1234 = true ↔ Z.land 0x1234 0xFFFF = 0x1234).
Proof.
  split; [lia |].
  apply (CodeAddressIsValid_16_bits tt 0x1234). lia.
Defined.

(** ** Further properties of the stubs and of the factory *)

Section more_stubs.

Context {ABISysV_mos Thread ValueObject CompilerType : Type}.
Context (this : ABISysV_mos).

(** X12.  [GetReturnValueObjectSimple] returns a null value object and
    hands the thread and the type back as it received them, whatever
    they are; it agrees with [GetReturnValueObjectImpl] on every
    input. *)
Theorem GetReturnValueObjectSimple_null
    (thread : Thread) (return_compiler_type : CompilerType) :
  GetReturnValueObjectSimple (ValueObject := ValueObject) this thread
    return_compiler_type
  = (None, thread, return_compiler_type)
  ∧ GetReturnValueObjectSimple (ValueObject := ValueObject) this thread
      return_compiler_type
    = GetReturnValueObjectImpl this thread return_compiler_type.
Proof. split; reflexivity. Qed.

End more_stubs.

Section factory.

Context {ArchType : Type} `{EqDecision ArchType} (mos : ArchType).
Context {Triple ArchSpec : Type}.
Context (GetTriple : ArchSpec → Triple) (getArch : Triple → ArchType).
Context {ProcessSP MCRegisterInfo : Type}.
Context (MakeMCRegisterInfo : ArchSpec → MCRegisterInfo).

(** X13.  [CreateInstance] returns an object exactly when the
    architecture of the triple is mos, and then the object holds the
    process it was given and the register info made from the
    architecture; for every other architecture it returns null. *)
Theorem CreateInstance_only_for_mos
    (process_sp : ProcessSP) (arch : ArchSpec) :
  let create := CreateInstance mos GetTriple getArch MakeMCRegisterInfo in
  (∀ abi,
     create process_sp arch = Some abi
     ↔ getArch (GetTriple arch) = mos
       ∧ abi = new_ABISysV_mos process_sp (MakeMCRegisterInfo arch))
  ∧ (create process_sp arch = None ↔ getArch (GetTriple arch) ≠ mos).
Proof.
  intros create. subst create. unfold CreateInstance.
  split; [intros abi |]; case_decide; split.
  - intros [= <-]. done.
  - intros [_ ->]. done.
  - discriminate.
  - intros [? _]. done.
  - discriminate.
  - done.
  - done.
  - done.
Qed.

End factory.
